(** * edm::InputSource (FWCore/Framework/interface/InputSource.h)

    A shallow embedding of the state kept by the abstract input source
    and of the member functions whose bodies are given in the header:
    the limit tracker (repeat, eventLimitReached, lumiLimitReached,
    limitReached), the current-position cache (setRunAuxiliary,
    setLuminosityBlockAuxiliary, resetRunAuxiliary,
    resetLuminosityBlockAuxiliary, reset), the newRun, newLumi and
    eventCached flags, the timestamp, and ItemTypeInfo.

    Member functions that the header only declares (nextItemType,
    goToEvent, the sentries' constructors and destructors) are modelled
    from the specification; each such definition says so. *)

From Stdlib Require Import ZArith List Bool String Lia.
Import ListNotations.
Local Open Scope Z_scope.

(** ** Item types *)

(** enum class ItemType : char *)
Inductive ItemType : Type :=
| IsInvalid | IsStop | IsFile | IsRun | IsLumi | IsEvent | IsRepeat | IsSynchronize.

(** enum class ItemPosition : char *)
Inductive ItemPosition : Type :=
| Invalid | LastItemToBeMerged | NotLastItemToBeMerged.

(** enum ProcessingMode *)
Inductive ProcessingMode : Type :=
| Runs | RunsAndLumis | RunsLumisAndEvents.

(** class ItemTypeInfo: the two private members type_ and position_.
    The constructor stores its two arguments as they are given. *)
Record ItemTypeInfo : Type := mkItemTypeInfo {
  type_ : ItemType;
  position_ : ItemPosition
}.

(** ItemTypeInfo(ItemType type = IsInvalid, ItemPosition position = Invalid):
    an argument left out is [None] and takes its default. *)
Definition ItemTypeInfo_ctor (type : option ItemType)
    (position : option ItemPosition) : ItemTypeInfo :=
  mkItemTypeInfo
    (match type with Some t => t | None => IsInvalid end)
    (match position with Some p => p | None => Invalid end).

(** ItemTypeInfo() *)
Definition ItemTypeInfo_default : ItemTypeInfo := ItemTypeInfo_ctor None None.

(** The implicit conversion from an ItemType: ItemTypeInfo(type). *)
Definition ItemTypeInfo_of (t : ItemType) : ItemTypeInfo :=
  ItemTypeInfo_ctor (Some t) None.

Definition itemType (i : ItemTypeInfo) : ItemType := type_ i.
Definition itemPosition (i : ItemTypeInfo) : ItemPosition := position_ i.

(** operator ItemType() const { return type_; } *)
Definition toItemType (i : ItemTypeInfo) : ItemType := type_ i.

(** The built-in == of the enum class ItemType. *)
Definition ItemType_eqb (a b : ItemType) : bool :=
  match a, b with
  | IsInvalid, IsInvalid | IsStop, IsStop | IsFile, IsFile | IsRun, IsRun
  | IsLumi, IsLumi | IsEvent, IsEvent | IsRepeat, IsRepeat
  | IsSynchronize, IsSynchronize => true
  | _, _ => false
  end.

(** info == type, for an ItemTypeInfo and an ItemType: no operator== of
    ItemTypeInfo is defined, so the left side is converted to its
    ItemType and the enums are compared. *)
Definition ItemTypeInfo_is (i : ItemTypeInfo) (t : ItemType) : bool :=
  ItemType_eqb (toItemType i) t.

(** The convention written next to position_: it "should always be
    Invalid if the itemType_ is not IsRun or IsLumi". *)
Definition positionAllowed (i : ItemTypeInfo) : bool :=
  match itemPosition i with
  | Invalid => true
  | _ => match itemType i with IsRun | IsLumi => true | _ => false end
  end.

(** The same as a proposition: position != Invalid implies type in {IsRun, IsLumi}. *)
Definition positionConvention (i : ItemTypeInfo) : Prop :=
  itemPosition i <> Invalid -> itemType i = IsRun \/ itemType i = IsLumi.

(** ** Collaborators

    Classes of other packages that the input source only stores or hands
    on.  The steady clock counts ticks; how many make a second is fixed
    by the platform. *)
Class Collaborators : Type := {
  ActivityRegistry : Type;
  ModuleDescription : Type;
  ProductRegistry : Type;
  ProcessHistoryRegistry : Type;
  BranchIDListHelper : Type;
  ProcessBlockHelper : Type;
  ThinnedAssociationsHelper : Type;
  Timestamp : Type;
  RunAuxiliary : Type;
  LuminosityBlockAuxiliary : Type;
  EventID : Type;
  StreamContext : Type;
  ticksPerSecond : positive
}.

(** ** Tick counts

    The steady clock keeps its time points and the differences between
    them as signed 64-bit tick counts. *)
Definition int64_min : Z := -9223372036854775808.
Definition int64_max : Z := 9223372036854775807.

Definition inInt64 (z : Z) : Prop := int64_min <= z <= int64_max.

(** A value as 64 bits hold it in two's complement; it is the value
    itself when it fits. *)
Definition wrap64 (z : Z) : Z :=
  (z - int64_min) mod 18446744073709551616 + int64_min.

Section Source.
Context {ext : Collaborators}.

(** ** The data members of InputSource

    An int is a [Z]; a shared_ptr or unique_ptr is an [option], [None]
    being the null pointer; a steady_clock time_point is its tick count. *)
Record InputSource : Type := mkInputSource {
  actReg_ : option ActivityRegistry;
  maxEvents_ : Z;
  remainingEvents_ : Z;
  maxLumis_ : Z;
  remainingLumis_ : Z;
  readCount_ : Z;
  maxSecondsUntilRampdown_ : Z;
  processingStart_ : Z;
  processingMode_ : ProcessingMode;
  moduleDescription_ : ModuleDescription;
  productRegistry_ : ProductRegistry;
  processHistoryRegistry_ : option ProcessHistoryRegistry;
  branchIDListHelper_ : option BranchIDListHelper;
  processBlockHelper_ : option ProcessBlockHelper;
  thinnedAssociationsHelper_ : option ThinnedAssociationsHelper;
  processGUID_ : string;
  time_ : Timestamp;
  newRun_ : bool;
  newLumi_ : bool;
  eventCached_ : bool;
  state_ : ItemTypeInfo;
  runAuxiliary_ : option RunAuxiliary;
  lumiAuxiliary_ : option LuminosityBlockAuxiliary;
  statusFileName_ : string;
  numberOfEventsBeforeBigSkip_ : Z
}.

(** Assignments to single members. *)
Definition set_remainingEvents_ (v : Z) (s : InputSource) : InputSource :=
  mkInputSource (actReg_ s) (maxEvents_ s) v (maxLumis_ s)
    (remainingLumis_ s) (readCount_ s) (maxSecondsUntilRampdown_ s)
    (processingStart_ s) (processingMode_ s) (moduleDescription_ s)
    (productRegistry_ s) (processHistoryRegistry_ s) (branchIDListHelper_ s)
    (processBlockHelper_ s) (thinnedAssociationsHelper_ s) (processGUID_ s)
    (time_ s) (newRun_ s) (newLumi_ s) (eventCached_ s) (state_ s)
    (runAuxiliary_ s) (lumiAuxiliary_ s) (statusFileName_ s)
    (numberOfEventsBeforeBigSkip_ s).

Definition set_remainingLumis_ (v : Z) (s : InputSource) : InputSource :=
  mkInputSource (actReg_ s) (maxEvents_ s) (remainingEvents_ s) (maxLumis_ s)
    v (readCount_ s) (maxSecondsUntilRampdown_ s)
    (processingStart_ s) (processingMode_ s) (moduleDescription_ s)
    (productRegistry_ s) (processHistoryRegistry_ s) (branchIDListHelper_ s)
    (processBlockHelper_ s) (thinnedAssociationsHelper_ s) (processGUID_ s)
    (time_ s) (newRun_ s) (newLumi_ s) (eventCached_ s) (state_ s)
    (runAuxiliary_ s) (lumiAuxiliary_ s) (statusFileName_ s)
    (numberOfEventsBeforeBigSkip_ s).

Definition set_newRun_ (v : bool) (s : InputSource) : InputSource :=
  mkInputSource (actReg_ s) (maxEvents_ s) (remainingEvents_ s) (maxLumis_ s)
    (remainingLumis_ s) (readCount_ s) (maxSecondsUntilRampdown_ s)
    (processingStart_ s) (processingMode_ s) (moduleDescription_ s)
    (productRegistry_ s) (processHistoryRegistry_ s) (branchIDListHelper_ s)
    (processBlockHelper_ s) (thinnedAssociationsHelper_ s) (processGUID_ s)
    (time_ s) v (newLumi_ s) (eventCached_ s) (state_ s)
    (runAuxiliary_ s) (lumiAuxiliary_ s) (statusFileName_ s)
    (numberOfEventsBeforeBigSkip_ s).

Definition set_newLumi_ (v : bool) (s : InputSource) : InputSource :=
  mkInputSource (actReg_ s) (maxEvents_ s) (remainingEvents_ s) (maxLumis_ s)
    (remainingLumis_ s) (readCount_ s) (maxSecondsUntilRampdown_ s)
    (processingStart_ s) (processingMode_ s) (moduleDescription_ s)
    (productRegistry_ s) (processHistoryRegistry_ s) (branchIDListHelper_ s)
    (processBlockHelper_ s) (thinnedAssociationsHelper_ s) (processGUID_ s)
    (time_ s) (newRun_ s) v (eventCached_ s) (state_ s)
    (runAuxiliary_ s) (lumiAuxiliary_ s) (statusFileName_ s)
    (numberOfEventsBeforeBigSkip_ s).

Definition set_state_ (v : ItemTypeInfo) (s : InputSource) : InputSource :=
  mkInputSource (actReg_ s) (maxEvents_ s) (remainingEvents_ s) (maxLumis_ s)
    (remainingLumis_ s) (readCount_ s) (maxSecondsUntilRampdown_ s)
    (processingStart_ s) (processingMode_ s) (moduleDescription_ s)
    (productRegistry_ s) (processHistoryRegistry_ s) (branchIDListHelper_ s)
    (processBlockHelper_ s) (thinnedAssociationsHelper_ s) (processGUID_ s)
    (time_ s) (newRun_ s) (newLumi_ s) (eventCached_ s) v
    (runAuxiliary_ s) (lumiAuxiliary_ s) (statusFileName_ s)
    (numberOfEventsBeforeBigSkip_ s).

Definition set_runAuxiliary_ (v : option RunAuxiliary) (s : InputSource)
    : InputSource :=
  mkInputSource (actReg_ s) (maxEvents_ s) (remainingEvents_ s) (maxLumis_ s)
    (remainingLumis_ s) (readCount_ s) (maxSecondsUntilRampdown_ s)
    (processingStart_ s) (processingMode_ s) (moduleDescription_ s)
    (productRegistry_ s) (processHistoryRegistry_ s) (branchIDListHelper_ s)
    (processBlockHelper_ s) (thinnedAssociationsHelper_ s) (processGUID_ s)
    (time_ s) (newRun_ s) (newLumi_ s) (eventCached_ s) (state_ s)
    v (lumiAuxiliary_ s) (statusFileName_ s)
    (numberOfEventsBeforeBigSkip_ s).

Definition set_lumiAuxiliary_ (v : option LuminosityBlockAuxiliary)
    (s : InputSource) : InputSource :=
  mkInputSource (actReg_ s) (maxEvents_ s) (remainingEvents_ s) (maxLumis_ s)
    (remainingLumis_ s) (readCount_ s) (maxSecondsUntilRampdown_ s)
    (processingStart_ s) (processingMode_ s) (moduleDescription_ s)
    (productRegistry_ s) (processHistoryRegistry_ s) (branchIDListHelper_ s)
    (processBlockHelper_ s) (thinnedAssociationsHelper_ s) (processGUID_ s)
    (time_ s) (newRun_ s) (newLumi_ s) (eventCached_ s) (state_ s)
    (runAuxiliary_ s) v (statusFileName_ s)
    (numberOfEventsBeforeBigSkip_ s).

(** ** Limit tracker *)

(** void repeat() { remainingEvents_ = maxEvents_; remainingLumis_ = maxLumis_; } *)
Definition repeat (s : InputSource) : InputSource :=
  let s1 := set_remainingEvents_ (maxEvents_ s) s in
  set_remainingLumis_ (maxLumis_ s1) s1.

Definition maxEvents (s : InputSource) : Z := maxEvents_ s.
Definition remainingEvents (s : InputSource) : Z := remainingEvents_ s.
Definition maxLuminosityBlocks (s : InputSource) : Z := maxLumis_ s.
Definition remainingLuminosityBlocks (s : InputSource) : Z := remainingLumis_ s.

(** bool eventLimitReached() const { return remainingEvents_ == 0; } *)
Definition eventLimitReached (s : InputSource) : bool :=
  remainingEvents_ s =? 0.

(** duration_cast<seconds>(end - processingStart_).count(), [now] being
    what steady_clock::now() answers: the difference is a 64-bit tick
    count, and the cast to whole seconds rounds towards zero. *)
Definition elapsedSeconds (now : Z) (s : InputSource) : Z :=
  Z.quot (wrap64 (now - processingStart_ s)) (Z.pos ticksPerSecond).

(** bool lumiLimitReached() const.  The clock is read by the caller and
    passed in as [now]; reading it changes nothing. *)
Definition lumiLimitReached (now : Z) (s : InputSource) : bool :=
  if remainingLumis_ s =? 0 then true
  else if maxSecondsUntilRampdown_ s <=? 0 then false
  else if maxSecondsUntilRampdown_ s <? elapsedSeconds now s then true
  else false.

(** bool limitReached() const { return eventLimitReached() || lumiLimitReached(); } *)
Definition limitReached (now : Z) (s : InputSource) : bool :=
  eventLimitReached s || lumiLimitReached now s.

(** ** Current-position cache *)

Definition runAuxiliary (s : InputSource) : option RunAuxiliary :=
  runAuxiliary_ s.
Definition luminosityBlockAuxiliary (s : InputSource)
    : option LuminosityBlockAuxiliary :=
  lumiAuxiliary_ s.
Definition state (s : InputSource) : ItemTypeInfo := state_ s.
Definition newRun (s : InputSource) : bool := newRun_ s.
Definition newLumi (s : InputSource) : bool := newLumi_ s.

(** void setRunAuxiliary(RunAuxiliary* rp)
    { runAuxiliary_.reset(rp); newRun_ = newLumi_ = true; }
    The chained assignment stores into newLumi_ first. *)
Definition setRunAuxiliary (rp : option RunAuxiliary) (s : InputSource)
    : InputSource :=
  set_newRun_ true (set_newLumi_ true (set_runAuxiliary_ rp s)).

(** void setLuminosityBlockAuxiliary(LuminosityBlockAuxiliary* lbp)
    { lumiAuxiliary_.reset(lbp); newLumi_ = true; } *)
Definition setLuminosityBlockAuxiliary (lbp : option LuminosityBlockAuxiliary)
    (s : InputSource) : InputSource :=
  set_newLumi_ true (set_lumiAuxiliary_ lbp s).

(** void resetRunAuxiliary(bool isNewRun = true) const
    { runAuxiliary_.reset(); newRun_ = newLumi_ = isNewRun; } *)
Definition resetRunAuxiliary (isNewRun : bool) (s : InputSource)
    : InputSource :=
  set_newRun_ isNewRun (set_newLumi_ isNewRun (set_runAuxiliary_ None s)).

(** void resetLuminosityBlockAuxiliary(bool isNewLumi = true) const
    { lumiAuxiliary_.reset(); newLumi_ = isNewLumi; } *)
Definition resetLuminosityBlockAuxiliary (isNewLumi : bool) (s : InputSource)
    : InputSource :=
  set_newLumi_ isNewLumi (set_lumiAuxiliary_ None s).

(** void reset() const
    { resetLuminosityBlockAuxiliary(); resetRunAuxiliary(); state_ = ItemTypeInfo(); }
    Both calls take the default argument true. *)
Definition reset (s : InputSource) : InputSource :=
  set_state_ ItemTypeInfo_default
    (resetRunAuxiliary true (resetLuminosityBlockAuxiliary true s)).

(** ** Flags and timestamp *)





(** ** The adapter

    The member functions a concrete source overrides.  A hook runs on
    the object it belongs to: the members of InputSource, which it
    reaches through the protected functions, and the members [A] the
    derived class adds.  getNextItemType is pure virtual; goToEvent_
    has a default, so an adapter either overrides it or not. *)
Record Adapter (A : Type) : Type := mkAdapter {
  getNextItemType : InputSource -> A -> ItemTypeInfo * InputSource * A;
  goToEvent_override :
    option (EventID -> InputSource -> A -> bool * InputSource * A)
}.
Arguments getNextItemType {A} _ _ _.
Arguments goToEvent_override {A} _.
Arguments mkAdapter {A} _ _.

(** Modelled from the spec: a source at work, as nextItemType() sees it.
    Besides the InputSource members and the members of the derived
    class, the contract of advance() ("repeated calls without an
    intervening read return the same answer") needs to know whether the
    answer kept in state_ has been followed by a read; the header
    declares no member for that, so it is the flag [peeked] here. *)
Record Machine (A : Type) : Type := mkMachine {
  source : InputSource;
  adapter : A;
  peeked : bool
}.
Arguments mkMachine {A} _ _ _.
Arguments source {A} _.
Arguments adapter {A} _.
Arguments peeked {A} _.


Section Advance.
Context {A : Type} (hooks : Adapter A).

(** Modelled from the spec: the body of nextItemType_() is not in the
    header.  Steps (1) and (2) of the contract of advance(): if a limit
    (event count, lumi count or rampdown deadline) has been reached the
    type is forced to Stop regardless of the adapter, otherwise the
    adapter's "what is next" hook is asked. *)
Definition nextItemType_ (now : Z) (s : InputSource) (a : A)
    : ItemTypeInfo * InputSource * A :=
  if limitReached now s then (ItemTypeInfo_of IsStop, s, a)
  else getNextItemType hooks s a.

(** Modelled from the spec: the body of nextItemType() is not in the
    header.  Step (3) of the contract of advance(): the result is cached
    in state_, and a call made while that answer is still pending (no
    read has followed it) returns the cached answer.  Pending is the
    [peeked] flag of the machine, which reset() and the read operations
    (not in the header either) clear. *)
Definition nextItemType (now : Z) (m : Machine A)
    : ItemTypeInfo * Machine A :=
  if peeked m then (state_ (source m), m)
  else
    let '(r, s, a) := nextItemType_ now (source m) (adapter m) in
    (r, mkMachine (set_state_ r s) a true).

(** Consecutive calls of nextItemType(), one per clock reading, with
    nothing in between. *)
Fixpoint nextItemType_calls (nows : list Z) (m : Machine A)
    : list ItemTypeInfo * Machine A :=
  match nows with
  | [] => ([], m)
  | now :: rest =>
      let '(r, m1) := nextItemType now m in
      let '(rs, m2) := nextItemType_calls rest m1 in
      (r :: rs, m2)
  end.

(** Modelled from the spec: the default body of goToEvent_() is not in
    the header.  An unsupported capability is "reported as a boolean
    false/no-op, never a fault". *)
Definition goToEvent_default (eventID : EventID) (s : InputSource) (a : A)
    : bool * InputSource * A :=
  (false, s, a).

(** Virtual dispatch of goToEvent_. *)
Definition goToEvent_ : EventID -> InputSource -> A -> bool * InputSource * A :=
  match goToEvent_override hooks with
  | Some f => f
  | None => goToEvent_default
  end.

(** Modelled from the spec: the body of goToEvent() is not in the
    header.  It "seeks directly to an event by full identity; returns
    whether found": the seek is the adapter's hook, and the answer is
    handed back as it is. *)
Definition goToEvent (eventID : EventID) (m : Machine A)
    : bool * Machine A :=
  let '(found, s, a) := goToEvent_ eventID (source m) (adapter m) in
  (found, mkMachine s a (peeked m)).

End Advance.

(** ** Lifecycle sentries *)

(** The six sentry classes, each with what its constructor is given
    besides the source: EventSourceSentry(source, sc),
    LumiSourceSentry(source, id), RunSourceSentry(source, id),
    ProcessBlockSourceSentry(source, processName),
    FileOpenSentry(source, lfn), FileCloseSentry(source, lfn).
    LuminosityBlockIndex and RunIndex wrap an unsigned int. *)
Inductive Sentry : Type :=
| EventSourceSentry (sc : StreamContext)
| LumiSourceSentry (id : N)
| RunSourceSentry (id : N)
| ProcessBlockSourceSentry (processName : string)
| FileOpenSentry (lfn : string)
| FileCloseSentry (lfn : string).

(** Modelled from the spec: what a sentry's signals deliver, a "begin"
    notification or the matching "end" notification of that sentry. *)
Inductive Notification : Type :=
| Begin (g : Sentry)
| Finish (g : Sentry).

(** How a piece of code leaves its scope: by returning a value or by a
    propagating fault. *)
Inductive Exit (R : Type) : Type :=
| Returned (r : R)
| Faulted (what : string).
Arguments Returned {R} _.
Arguments Faulted {R} _.

(** A run of a piece of code: the notifications it emitted, oldest
    first, and how it left. *)
Definition Run (R : Type) : Type := (list Notification * Exit R)%type.

Definition emitted {R : Type} (c : Run R) : list Notification := fst c.
Definition exit {R : Type} (c : Run R) : Exit R := snd c.

Definition ret {R : Type} (r : R) : Run R := ([], Returned r).
Definition raise {R : Type} (what : string) : Run R := ([], Faulted what).
Definition emit (n : Notification) : Run unit := ([n], Returned tt).

(** Sequencing: a fault in the first part skips the second. *)
Definition bind {R S : Type} (c : Run R) (k : R -> Run S) : Run S :=
  match exit c with
  | Returned r => (emitted c ++ emitted (k r), exit (k r))
  | Faulted what => (emitted c, Faulted what)
  end.

(** A block that declares a local object: the constructor runs, then the
    rest of the block, and the destructor runs when the block is left,
    by a return or by a fault alike; the block leaves the way its body
    did.  If the constructor itself faults there is no object and no
    destructor call. *)
Definition scoped {T R : Type} (ctor : Run T) (dtor : T -> Run unit)
    (body : T -> Run R) : Run R :=
  match exit ctor with
  | Returned obj =>
      (emitted ctor ++ emitted (body obj) ++ emitted (dtor obj),
       exit (body obj))
  | Faulted what => (emitted ctor, Faulted what)
  end.

(** Modelled from the spec: the sentries' constructors and destructors
    are declared in the header and defined elsewhere.  "Construction
    emits a begin notification, destruction emits the matching end
    notification". *)
Definition Sentry_ctor (g : Sentry) : Run Sentry :=
  bind (emit (Begin g)) (fun _ => ret g).

Definition Sentry_dtor (g : Sentry) : Run unit := emit (Finish g).

(** { Sentry sentry(source, ...); body } *)
Definition with_sentry {R : Type} (g : Sentry) (body : Run R) : Run R :=
  scoped (Sentry_ctor g) Sentry_dtor (fun _ => body).

(** Code that works under sentries: single steps that return or fault,
    sequences, handlers, and blocks guarded by a sentry. *)
Inductive Block : Type :=
| Step (fault : option string)
| Seq (first second : Block)
| TryCatch (body handler : Block)
| Guarded (g : Sentry) (body : Block).

Fixpoint run (b : Block) : Run unit :=
  match b with
  | Step None => ret tt
  | Step (Some what) => raise what
  | Seq first second => bind (run first) (fun _ => run second)
  | TryCatch body handler =>
      match exit (run body) with
      | Returned r => run body
      | Faulted _ => (emitted (run body) ++ emitted (run handler),
                      exit (run handler))
      end
  | Guarded g body => with_sentry g (run body)
  end.

(** Notifications in begin/end pairs, each end closing the latest open
    begin of the same sentry. *)
Inductive Paired : list Notification -> Prop :=
| Paired_nil : Paired []
| Paired_scope (g : Sentry) (inner : list Notification) :
    Paired inner -> Paired (Begin g :: inner ++ [Finish g])
| Paired_app (l r : list Notification) :
    Paired l -> Paired r -> Paired (l ++ r).

(** How many sentries a block constructs when it runs. *)
Fixpoint constructed (b : Block) : nat :=
  match b with
  | Step _ => 0
  | Seq first second =>
      match exit (run first) with
      | Returned _ => constructed first + constructed second
      | Faulted _ => constructed first
      end
  | TryCatch body handler =>
      match exit (run body) with
      | Returned _ => constructed body
      | Faulted _ => constructed body + constructed handler
      end
  | Guarded _ body => S (constructed body)
  end%nat.

Definition isBegin (n : Notification) : bool :=
  match n with Begin _ => true | Finish _ => false end.
Definition isFinish (n : Notification) : bool :=
  match n with Begin _ => false | Finish _ => true end.

End Source.

Arguments getNextItemType {ext A} _ _ _.
Arguments goToEvent_override {ext A} _.
Arguments mkAdapter {ext A} _ _.
Arguments mkMachine {ext A} _ _ _.
Arguments source {ext A} _.
Arguments adapter {ext A} _.
Arguments peeked {ext A} _.
Arguments Returned {R} _.
Arguments Faulted {R} _.

(** ** Sample data

    A platform whose steady clock ticks in nanoseconds, a source limited
    with chosen limits, and an adapter. *)
Definition nanosecondPlatform : Collaborators := {|
  ActivityRegistry := unit;
  ModuleDescription := unit;
  ProductRegistry := unit;
  ProcessHistoryRegistry := unit;
  BranchIDListHelper := unit;
  ProcessBlockHelper := unit;
  ThinnedAssociationsHelper := unit;
  Timestamp := Z;
  RunAuxiliary := N;
  LuminosityBlockAuxiliary := N;
  EventID := (N * N * N)%type;
  StreamContext := N;
  ticksPerSecond := 1000000000
|}.

(** A source with the given limits, started at tick 0, nothing cached. *)
Definition sampleSource (maxEvents maxLumis maxSeconds : Z)
    : @InputSource nanosecondPlatform :=
  @mkInputSource nanosecondPlatform
    None maxEvents maxEvents maxLumis maxLumis 0 maxSeconds 0
    RunsLumisAndEvents tt tt None None None None "guid"%string 0
    false false false ItemTypeInfo_default None None ""%string 0.

(** An adapter that walks a list of answers and counts how often it was
    asked; it does not override goToEvent_. *)
Definition listAdapter
    : @Adapter nanosecondPlatform (list ItemTypeInfo * nat) :=
  @mkAdapter nanosecondPlatform (list ItemTypeInfo * nat)
    (fun s a =>
       match fst a with
       | [] => (ItemTypeInfo_of IsStop, s, ([], S (snd a)))
       | i :: rest => (i, s, (rest, S (snd a)))
       end)
    None.

(** ** Properties of the header's member functions *)

Section HeaderProperties.
Context {ext : Collaborators}.

Lemma set_remainingLumis_after_Events (e l : Z) (s : InputSource) :
  set_remainingLumis_ l (set_remainingEvents_ e s) =
  mkInputSource (actReg_ s) (maxEvents_ s) e (maxLumis_ s) l
    (readCount_ s) (maxSecondsUntilRampdown_ s) (processingStart_ s)
    (processingMode_ s) (moduleDescription_ s) (productRegistry_ s)
    (processHistoryRegistry_ s) (branchIDListHelper_ s)
    (processBlockHelper_ s) (thinnedAssociationsHelper_ s) (processGUID_ s)
    (time_ s) (newRun_ s) (newLumi_ s) (eventCached_ s) (state_ s)
    (runAuxiliary_ s) (lumiAuxiliary_ s) (statusFileName_ s)
    (numberOfEventsBeforeBigSkip_ s).
Proof. reflexivity. Qed.

(** C1. repeat() sets the remaining event count to maxEvents and the
    remaining lumi count to maxLumis and changes no other member: the
    source after repeat() is the source before it with those two
    members replaced.  In particular processingStart_ and
    maxSecondsUntilRampdown_ are as before, and so is the elapsed time
    the rampdown check computes. *)
Theorem repeat_restores_counts (s : InputSource) :
  remainingEvents (repeat s) = maxEvents s /\
  remainingLuminosityBlocks (repeat s) = maxLuminosityBlocks s /\
  repeat s =
    mkInputSource (actReg_ s) (maxEvents_ s) (maxEvents_ s) (maxLumis_ s)
      (maxLumis_ s) (readCount_ s) (maxSecondsUntilRampdown_ s)
      (processingStart_ s) (processingMode_ s) (moduleDescription_ s)
      (productRegistry_ s) (processHistoryRegistry_ s)
      (branchIDListHelper_ s) (processBlockHelper_ s)
      (thinnedAssociationsHelper_ s) (processGUID_ s) (time_ s)
      (newRun_ s) (newLumi_ s) (eventCached_ s) (state_ s)
      (runAuxiliary_ s) (lumiAuxiliary_ s) (statusFileName_ s)
      (numberOfEventsBeforeBigSkip_ s) /\
  processingStart_ (repeat s) = processingStart_ s /\
  maxSecondsUntilRampdown_ (repeat s) = maxSecondsUntilRampdown_ s /\
  (forall now, elapsedSeconds now (repeat s) = elapsedSeconds now s).
Proof.
  unfold repeat.
  rewrite set_remainingLumis_after_Events.
  repeat split.
Qed.

(** C5. For every boolean b: after resetRunAuxiliary(b) the accessor
    runAuxiliary() returns the null pointer and newRun() is b; after
    resetLuminosityBlockAuxiliary(b) the accessor
    luminosityBlockAuxiliary() returns the null pointer and newLumi()
    is b. *)
Theorem reset_auxiliary_accessors (b : bool) (s : InputSource) :
  runAuxiliary (resetRunAuxiliary b s) = None /\
  newRun (resetRunAuxiliary b s) = b /\
  luminosityBlockAuxiliary (resetLuminosityBlockAuxiliary b s) = None /\
  newLumi (resetLuminosityBlockAuxiliary b s) = b.
Proof.
  destruct s; cbn.
  repeat split.
Qed.


(** C10. setRunAuxiliary(rp) installs rp and sets newRun and newLumi;
    setLuminosityBlockAuxiliary(lbp) installs lbp and sets newLumi only,
    newRun and the run snapshot staying as they were;
    resetRunAuxiliary(b) assigns b to newRun and newLumi;
    resetLuminosityBlockAuxiliary(b) assigns b to newLumi only. *)
Theorem auxiliary_flag_effects (rp : option RunAuxiliary)
    (lbp : option LuminosityBlockAuxiliary) (b : bool) (s : InputSource) :
  (runAuxiliary (setRunAuxiliary rp s) = rp /\
   newRun (setRunAuxiliary rp s) = true /\
   newLumi (setRunAuxiliary rp s) = true) /\
  (luminosityBlockAuxiliary (setLuminosityBlockAuxiliary lbp s) = lbp /\
   newLumi (setLuminosityBlockAuxiliary lbp s) = true /\
   newRun (setLuminosityBlockAuxiliary lbp s) = newRun s /\
   runAuxiliary (setLuminosityBlockAuxiliary lbp s) = runAuxiliary s) /\
  (newRun (resetRunAuxiliary b s) = b /\
   newLumi (resetRunAuxiliary b s) = b) /\
  (newLumi (resetLuminosityBlockAuxiliary b s) = b /\
   newRun (resetLuminosityBlockAuxiliary b s) = newRun s).
Proof.
  destruct s; cbn.
  repeat split.
Qed.

End HeaderProperties.

(** ** ItemTypeInfo and the position convention *)

Lemma positionAllowed_spec (i : ItemTypeInfo) :
  positionAllowed i = true <-> positionConvention i.
Proof.
  destruct i as [t p]; unfold positionAllowed, positionConvention; cbn.
  split.
  - intros H Hp.
    destruct p; [contradiction | | ]; destruct t; try discriminate H; auto.
  - intros H.
    destruct p; [reflexivity | | ];
      (destruct H as [H | H]; [discriminate | | ]; subst t; reflexivity).
Qed.

(** C7, as the claim has it, fails: the constructor takes any type with
    any position, so ItemTypeInfo(IsEvent, LastItemToBeMerged) is a value
    whose position is not Invalid and whose type is neither IsRun nor
    IsLumi. *)
Lemma ItemTypeInfo_ctor_unchecked :
  (itemPosition (ItemTypeInfo_ctor (Some IsEvent) (Some LastItemToBeMerged))
     <> Invalid) /\
  (itemType (ItemTypeInfo_ctor (Some IsEvent) (Some LastItemToBeMerged))
     <> IsRun) /\
  (itemType (ItemTypeInfo_ctor (Some IsEvent) (Some LastItemToBeMerged))
     <> IsLumi) /\
  ~ (forall i : ItemTypeInfo, positionConvention i).
Proof.
  cbn.
  repeat split; try discriminate.
  intros H.
  destruct (H (mkItemTypeInfo IsEvent LastItemToBeMerged)); discriminate.
Qed.

Section ItemTypeInfoProperties.
Context {ext : Collaborators}.

(** C7, amended.  The constructor stores the pair it is given, so
    ItemTypeInfo(t, p) keeps the convention exactly when p is Invalid or
    t is IsRun or IsLumi.  Every value built with the position argument
    left out (ItemTypeInfo() and the conversion from an ItemType) has
    position Invalid and keeps it, and so does the state_ that reset()
    installs. *)
Theorem ItemTypeInfo_position_convention :
  (forall t p,
     itemType (ItemTypeInfo_ctor (Some t) (Some p)) = t /\
     itemPosition (ItemTypeInfo_ctor (Some t) (Some p)) = p) /\
  (forall t p,
     positionAllowed (ItemTypeInfo_ctor (Some t) (Some p)) =
     match p, t with
     | Invalid, _ | _, IsRun | _, IsLumi => true
     | _, _ => false
     end) /\
  (forall t : option ItemType,
     itemPosition (ItemTypeInfo_ctor t None) = Invalid /\
     positionConvention (ItemTypeInfo_ctor t None)) /\
  (forall s : InputSource, positionConvention (state (reset s))).
Proof.
  split; [ | split; [ | split ] ].
  - intros t p; split; reflexivity.
  - intros t p; destruct p, t; reflexivity.
  - intros t; split; [reflexivity | ].
    apply positionAllowed_spec; reflexivity.
  - intros s; apply positionAllowed_spec.
    destruct s; reflexivity.
Qed.

End ItemTypeInfoProperties.

(** ** The limit tracker and advance() *)

Section LimitProperties.
Context {ext : Collaborators}.

Lemma wrap64_inInt64 (z : Z) : inInt64 z -> wrap64 z = z.
Proof.
  unfold inInt64, wrap64, int64_min, int64_max; intros H.
  rewrite Z.mod_small by lia.
  lia.
Qed.

(** Whole seconds against ticks, for a tick difference that 64 bits
    hold: more than [m] whole seconds have elapsed exactly when at least
    [m + 1] seconds' worth of ticks have.  A part of a second beyond the
    threshold does not count. *)
Lemma elapsedSeconds_gt (now m : Z) (s : InputSource) :
  inInt64 (now - processingStart_ s) ->
  0 <= m ->
  (m < elapsedSeconds now s <->
   (m + 1) * Z.pos ticksPerSecond <= now - processingStart_ s).
Proof.
  intros Hr Hm; unfold elapsedSeconds.
  rewrite (wrap64_inInt64 _ Hr).
  set (e := now - processingStart_ s).
  set (t := Z.pos ticksPerSecond).
  assert (Ht : 0 < t) by (subst t; lia).
  destruct (Z.neg_nonneg_cases e) as [Hneg | Hpos].
  - assert (Z.quot e t <= 0).
    { replace 0 with (Z.quot 0 t) by (apply Z.quot_0_l; lia).
      apply Z.quot_le_mono; lia. }
    split; intros; nia.
  - rewrite Z.quot_div_nonneg by lia.
    split; intros H.
    + assert (m + 1 <= e / t) by lia.
      pose proof (Z.mul_div_le e t Ht).
      nia.
    + assert (m + 1 <= e / t); [ | lia].
      apply Z.div_le_lower_bound; lia.
Qed.

Lemma no_lumis_lumiLimitReached (now : Z) (s : InputSource) :
  remainingLumis_ s = 0 -> lumiLimitReached now s = true.
Proof.
  intros H; unfold lumiLimitReached; rewrite H; reflexivity.
Qed.

Lemma no_rampdown_lumiLimitReached (now : Z) (s : InputSource) :
  maxSecondsUntilRampdown_ s <= 0 ->
  lumiLimitReached now s = (remainingLumis_ s =? 0).
Proof.
  intros H; unfold lumiLimitReached.
  destruct (remainingLumis_ s =? 0); [reflexivity | ].
  apply Z.leb_le in H; rewrite H; reflexivity.
Qed.

Lemma rampdown_passed_lumiLimitReached (now : Z) (s : InputSource) :
  0 < maxSecondsUntilRampdown_ s ->
  maxSecondsUntilRampdown_ s < elapsedSeconds now s ->
  lumiLimitReached now s = true.
Proof.
  intros Hpos Hgt; unfold lumiLimitReached.
  destruct (remainingLumis_ s =? 0); [reflexivity | ].
  apply Z.leb_gt in Hpos; rewrite Hpos.
  apply Z.ltb_lt in Hgt; rewrite Hgt; reflexivity.
Qed.

(** A call with no answer pending and a limit reached answers Stop
    without asking the adapter. *)
Lemma nextItemType_limit {A : Type} (hooks : Adapter A) (now : Z)
    (m : Machine A) :
  peeked m = false ->
  limitReached now (source m) = true ->
  nextItemType hooks now m =
  (ItemTypeInfo_of IsStop,
   mkMachine (set_state_ (ItemTypeInfo_of IsStop) (source m)) (adapter m) true).
Proof.
  intros Hp Hl; unfold nextItemType, nextItemType_.
  rewrite Hp, Hl; reflexivity.
Qed.

(** A call with an answer pending returns it and touches nothing. *)
Lemma nextItemType_pending {A : Type} (hooks : Adapter A) (now : Z)
    (m : Machine A) :
  peeked m = true ->
  nextItemType hooks now m = (state (source m), m).
Proof.
  intros Hp; unfold nextItemType; rewrite Hp; reflexivity.
Qed.

(** Every call leaves its answer pending in state_. *)
Lemma nextItemType_leaves_pending {A : Type} (hooks : Adapter A) (now : Z)
    (m : Machine A) :
  peeked (snd (nextItemType hooks now m)) = true /\
  state (source (snd (nextItemType hooks now m))) =
  fst (nextItemType hooks now m).
Proof.
  unfold nextItemType.
  destruct (peeked m) eqn:Hp; cbn.
  - split; [exact Hp | reflexivity].
  - destruct (nextItemType_ hooks now (source m) (adapter m)) as [[r s] a].
    cbn; destruct s; split; reflexivity.
Qed.

Lemma nextItemType_calls_pending {A : Type} (hooks : Adapter A)
    (nows : list Z) (m : Machine A) :
  peeked m = true ->
  nextItemType_calls hooks nows m =
  (List.repeat (state (source m)) (List.length nows), m).
Proof.
  intros Hp; induction nows as [ | now rest IH]; cbn.
  - reflexivity.
  - rewrite (nextItemType_pending hooks now m Hp), IH; reflexivity.
Qed.

(** C2. With no events remaining (maxEvents configured to 0), the first
    call of nextItemType(), the one with no earlier answer pending,
    returns Stop whatever the adapter would answer; the adapter is not
    asked. *)
Theorem nextItemType_stops_without_events {A : Type} (hooks : Adapter A)
    (now : Z) (m : Machine A) :
  remainingEvents (source m) = 0 ->
  peeked m = false ->
  itemType (fst (nextItemType hooks now m)) = IsStop /\
  adapter (snd (nextItemType hooks now m)) = adapter m.
Proof.
  intros Hev Hp.
  assert (Hl : limitReached now (source m) = true).
  { unfold limitReached, eventLimitReached.
    unfold remainingEvents in Hev; rewrite Hev; reflexivity. }
  rewrite (nextItemType_limit hooks now m Hp Hl).
  split; reflexivity.
Qed.


(** C4. In a run of consecutive nextItemType() calls with nothing in
    between, every call returns what the first returned, and the
    machine, the adapter's members included, stays as the first call
    left it: the later calls take the answer from state_ and do not ask
    the adapter. *)
Theorem nextItemType_idempotent {A : Type} (hooks : Adapter A) (now : Z)
    (nows : list Z) (m : Machine A) :
  nextItemType_calls hooks (now :: nows) m =
  (List.repeat (fst (nextItemType hooks now m)) (S (List.length nows)),
   snd (nextItemType hooks now m)).
Proof.
  cbn [nextItemType_calls].
  destruct (nextItemType_leaves_pending hooks now m) as [Hp Hs].
  destruct (nextItemType hooks now m) as [r m1]; cbn in *.
  rewrite (nextItemType_calls_pending hooks nows m1 Hp), Hs.
  reflexivity.
Qed.

(** C8. On an adapter that does not override goToEvent_, goToEvent()
    returns false and leaves the machine as it was: state_, the other
    members and the adapter's own. *)
Theorem goToEvent_unsupported {A : Type} (hooks : Adapter A)
    (eventID : EventID) (m : Machine A) :
  goToEvent_override hooks = None ->
  fst (goToEvent hooks eventID m) = false /\
  state (source (snd (goToEvent hooks eventID m))) = state (source m) /\
  snd (goToEvent hooks eventID m) = m.
Proof.
  intros Hno; unfold goToEvent, goToEvent_.
  rewrite Hno; cbn.
  destruct m; repeat split.
Qed.

End LimitProperties.

(** ** Lifecycle sentries *)

Section SentryProperties.
Context {ext : Collaborators}.

Lemma with_sentry_unfold {R : Type} (g : Sentry) (body : Run R) :
  with_sentry g body = (Begin g :: emitted body ++ [Finish g], exit body).
Proof. reflexivity. Qed.

Lemma filter_length_app {T : Type} (p : T -> bool) (l r : list T) :
  List.length (filter p (l ++ r)) =
  (List.length (filter p l) + List.length (filter p r))%nat.
Proof.
  rewrite filter_app, length_app; reflexivity.
Qed.

Lemma run_paired (b : Block) : Paired (emitted (run b)).
Proof.
  induction b as [fault | first IH1 second IH2 | body IH1 handler IH2
                 | g body IH]; cbn [run].
  - destruct fault; constructor.
  - unfold bind.
    destruct (exit (run first)); cbn; [ | exact IH1].
    apply Paired_app; assumption.
  - destruct (exit (run body)); cbn; [exact IH1 | ].
    apply Paired_app; assumption.
  - rewrite with_sentry_unfold; cbn.
    apply Paired_scope; exact IH.
Qed.

Lemma run_counts (b : Block) :
  List.length (filter isBegin (emitted (run b))) = constructed b /\
  List.length (filter isFinish (emitted (run b))) = constructed b.
Proof.
  induction b as [fault | first [IH1 IH1'] second [IH2 IH2']
                 | body [IH1 IH1'] handler [IH2 IH2'] | g body [IH IH']];
    cbn [run constructed].
  - destruct fault; split; reflexivity.
  - unfold bind.
    destruct (exit (run first)); cbn [emitted fst];
      [ | split; assumption].
    rewrite !filter_length_app.
    fold (emitted (run first)) (emitted (run second)).
    rewrite IH1, IH1', IH2, IH2'; split; reflexivity.
  - destruct (exit (run body)) eqn:E; cbn [emitted fst];
      [split; assumption | ].
    rewrite !filter_length_app.
    fold (emitted (run body)) (emitted (run handler)).
    rewrite IH1, IH1', IH2, IH2'; split; reflexivity.
  - rewrite with_sentry_unfold; cbn [emitted fst filter isBegin isFinish].
    cbn [List.length].
    rewrite !filter_length_app, IH, IH'; cbn.
    split; lia.
Qed.

(** C9. For each of the six sentries and any code in its scope, the
    notifications emitted are one begin, then whatever the code emits,
    then one matching end, whether the code returns or leaves by a
    fault, and the scope is left the way the code left it.  Hence in any
    code built from steps, sequences, handlers and guarded blocks the
    notifications come in begin/end pairs, one pair per sentry
    constructed. *)
Theorem sentry_begin_end_paired :
  (forall (g : Sentry) (R : Type) (body : Run R),
     emitted (with_sentry g body) = Begin g :: emitted body ++ [Finish g] /\
     exit (with_sentry g body) = exit body) /\
  (forall (g : Sentry) (R : Type) (inner : list Notification) (what : string),
     with_sentry g (inner, @Faulted R what) =
     (Begin g :: inner ++ [Finish g], Faulted what)) /\
  (forall b : Block,
     Paired (emitted (run b)) /\
     List.length (filter isBegin (emitted (run b))) = constructed b /\
     List.length (filter isFinish (emitted (run b))) = constructed b).
Proof.
  split; [ | split].
  - intros g R body; rewrite with_sentry_unfold; split; reflexivity.
  - intros g R inner what; reflexivity.
  - intros b; split; [apply run_paired | apply run_counts].
Qed.

End SentryProperties.

(** ** The properties at the sample data *)

(** A source with maxEvents = 0 and an adapter ready to answer IsFile:
    the first advance answers Stop and the adapter's counter stays 0. *)
Lemma nextItemType_stops_without_events_witness :
  itemType
    (fst (nextItemType listAdapter 0
            (mkMachine (sampleSource 0 (-1) 0)
                       ([ItemTypeInfo_of IsFile], 0%nat) false))) = IsStop /\
  adapter
    (snd (nextItemType listAdapter 0
            (mkMachine (sampleSource 0 (-1) 0)
                       ([ItemTypeInfo_of IsFile], 0%nat) false))) =
  ([ItemTypeInfo_of IsFile], 0%nat).
Proof.
  apply (nextItemType_stops_without_events listAdapter 0
           (mkMachine (sampleSource 0 (-1) 0)
                      ([ItemTypeInfo_of IsFile], 0%nat) false));
    reflexivity.
Defined.


(** The list adapter does not override goToEvent_. *)
Lemma goToEvent_unsupported_witness :
  fst (goToEvent listAdapter (1%N, 1%N, 7%N)
         (mkMachine (sampleSource (-1) (-1) 0) ([], 0%nat) false)) = false /\
  state (source (snd (goToEvent listAdapter (1%N, 1%N, 7%N)
         (mkMachine (sampleSource (-1) (-1) 0) ([], 0%nat) false)))) =
  state (sampleSource (-1) (-1) 0) /\
  snd (goToEvent listAdapter (1%N, 1%N, 7%N)
         (mkMachine (sampleSource (-1) (-1) 0) ([], 0%nat) false)) =
  mkMachine (sampleSource (-1) (-1) 0) ([], 0%nat) false.
Proof.
  apply (goToEvent_unsupported listAdapter (1%N, 1%N, 7%N)
           (mkMachine (sampleSource (-1) (-1) 0) ([], 0%nat) false)).
  reflexivity.
Defined.

(** With no limit reached the first advance asks the adapter, and two
    more advances repeat its answer without asking again. *)
Example advance_asks_adapter_once :
  nextItemType_calls listAdapter [0; 1; 2]
    (mkMachine (sampleSource (-1) (-1) 0)
               ([ItemTypeInfo_of IsFile; ItemTypeInfo_of IsRun], 0%nat)
               false) =
  ([ItemTypeInfo_of IsFile; ItemTypeInfo_of IsFile; ItemTypeInfo_of IsFile],
   mkMachine (set_state_ (ItemTypeInfo_of IsFile) (sampleSource (-1) (-1) 0))
             ([ItemTypeInfo_of IsRun], 1%nat) true).
Proof. reflexivity. Qed.

(** The rampdown check counts whole seconds: five and a half seconds
    are not more than five. *)
Example rampdown_counts_whole_seconds :
  elapsedSeconds 5500000000 (sampleSource (-1) 3 5) = 5 /\
  lumiLimitReached 5500000000 (sampleSource (-1) 3 5) = false /\
  lumiLimitReached 6000000000 (sampleSource (-1) 3 5) = true.
Proof. repeat split. Qed.

(** A fault inside a lumi sentry inside a run sentry: both ends are
    emitted, innermost first, and the fault propagates. *)
Example sentries_unwind :
  @run nanosecondPlatform
    (Guarded (RunSourceSentry 0)
       (Seq (Guarded (LumiSourceSentry 3) (Step (Some "read failed"%string)))
            (Guarded (@EventSourceSentry nanosecondPlatform 1%N) (Step None)))) =
  ([Begin (RunSourceSentry 0); Begin (LumiSourceSentry 3);
    Finish (LumiSourceSentry 3); Finish (RunSourceSentry 0)],
   Faulted "read failed"%string).
Proof. reflexivity. Qed.

(** ** More on the limit tracker *)

Section LimitTracker.
Context {ext : Collaborators}.

Lemma elapsedSeconds_mono (now later : Z) (s : InputSource) :
  inInt64 (now - processingStart_ s) ->
  inInt64 (later - processingStart_ s) ->
  now <= later -> elapsedSeconds now s <= elapsedSeconds later s.
Proof.
  intros Hn Hl H; unfold elapsedSeconds.
  rewrite (wrap64_inInt64 _ Hn), (wrap64_inInt64 _ Hl).
  apply Z.quot_le_mono; lia.
Qed.

Lemma lumiLimitReached_mono (now later : Z) (s : InputSource) :
  inInt64 (now - processingStart_ s) ->
  inInt64 (later - processingStart_ s) ->
  now <= later ->
  lumiLimitReached now s = true -> lumiLimitReached later s = true.
Proof.
  intros Hn Hlr Hle; unfold lumiLimitReached.
  destruct (remainingLumis_ s =? 0); [reflexivity | ].
  destruct (maxSecondsUntilRampdown_ s <=? 0); [discriminate | ].
  destruct (maxSecondsUntilRampdown_ s <? elapsedSeconds now s) eqn:E;
    [ | discriminate].
  intros _.
  apply Z.ltb_lt in E.
  pose proof (elapsedSeconds_mono now later s Hn Hlr Hle) as Hm.
  assert (Hl : maxSecondsUntilRampdown_ s < elapsedSeconds later s) by lia.
  apply Z.ltb_lt in Hl; rewrite Hl; reflexivity.
Qed.

(** X1. As long as the tick difference between now and processingStart_
    is one that the clock's 64 bits hold, lumiLimitReached() answers
    true exactly when no lumis remain, or the threshold is positive and
    at least threshold + 1 seconds' worth of ticks lie between
    processingStart_ and now.  A clock reading before processingStart_
    does not trigger the rampdown. *)
Theorem lumiLimitReached_in_ticks (now : Z) (s : InputSource) :
  inInt64 (now - processingStart_ s) ->
  (lumiLimitReached now s = true <->
   remainingLumis_ s = 0 \/
   (0 < maxSecondsUntilRampdown_ s /\
    (maxSecondsUntilRampdown_ s + 1) * Z.pos ticksPerSecond
      <= now - processingStart_ s)).
Proof.
  intros Hr.
  unfold lumiLimitReached.
  destruct (Z.eqb_spec (remainingLumis_ s) 0) as [H0 | H0].
  - split; [left; exact H0 | reflexivity].
  - destruct (Z.leb_spec (maxSecondsUntilRampdown_ s) 0) as [Hm | Hm].
    + split; [discriminate | ].
      intros [H | [H _]]; [contradiction | lia].
    + pose proof (elapsedSeconds_gt now (maxSecondsUntilRampdown_ s) s
                    Hr (Z.lt_le_incl _ _ Hm)) as Hiff.
      destruct (Z.ltb_spec (maxSecondsUntilRampdown_ s)
                  (elapsedSeconds now s)) as [Hl | Hl].
      * split; [ | reflexivity].
        intros _; right; split; [exact Hm | apply Hiff; exact Hl].
      * split; [discriminate | ].
        intros [H | [_ H]]; [contradiction | ].
        apply Hiff in H; lia.
Qed.

(** X2. The steady clock only moves forward, and a limit once reached
    stays reached as it does: if limitReached() is true at one clock
    reading it is true at every later one, the members being the same
    and both readings within what 64 bits hold of ticks since
    processingStart_. *)
Theorem limitReached_stays_reached (now later : Z) (s : InputSource) :
  inInt64 (now - processingStart_ s) ->
  inInt64 (later - processingStart_ s) ->
  now <= later ->
  limitReached now s = true ->
  limitReached later s = true.
Proof.
  intros Hn Hl Hle; unfold limitReached.
  destruct (eventLimitReached s); [reflexivity | cbn].
  apply lumiLimitReached_mono; assumption.
Qed.

(** X3. Only a count of exactly 0 stops: with remaining event and lumi
    counts different from 0 (the -1 of "unlimited", or any other value)
    and no positive rampdown threshold, limitReached() is false at every
    clock reading. *)
Theorem limitReached_never_when_unlimited (s : InputSource) :
  remainingEvents_ s <> 0 ->
  remainingLumis_ s <> 0 ->
  maxSecondsUntilRampdown_ s <= 0 ->
  forall now, limitReached now s = false.
Proof.
  intros He Hl Hm now.
  unfold limitReached, eventLimitReached.
  apply Z.eqb_neq in He; rewrite He; cbn.
  rewrite (no_rampdown_lumiLimitReached now s Hm).
  apply Z.eqb_neq; exact Hl.
Qed.

(** X4. What repeat() does to the limits: afterwards the event limit is
    reached exactly when maxEvents is 0, and the lumi limit is decided
    by maxLumis in place of the remaining count, the rampdown part of
    the check being as before. *)
Theorem limits_after_repeat (now : Z) (s : InputSource) :
  eventLimitReached (repeat s) = (maxEvents s =? 0) /\
  lumiLimitReached now (repeat s) =
    (if maxLuminosityBlocks s =? 0 then true
     else if maxSecondsUntilRampdown_ s <=? 0 then false
     else maxSecondsUntilRampdown_ s <? elapsedSeconds now s).
Proof.
  destruct s as [? ? ? maxLumis ? ? maxSeconds ? ? ? ? ? ? ? ? ? ? ? ? ? ? ? ? ? ?].
  unfold lumiLimitReached, elapsedSeconds; cbn.
  split; [reflexivity | ].
  destruct (maxLumis =? 0); [reflexivity | ].
  destruct (maxSeconds <=? 0); [reflexivity | ].
  destruct (maxSeconds <? _); reflexivity.
Qed.

(** X5. repeat() does not lift a rampdown stop: once more whole seconds
    than a positive threshold have elapsed, limitReached() is true after
    repeat() as well, whatever the configured maxima. *)
Theorem rampdown_survives_repeat (now : Z) (s : InputSource) :
  0 < maxSecondsUntilRampdown_ s ->
  maxSecondsUntilRampdown_ s < elapsedSeconds now s ->
  limitReached now (repeat s) = true.
Proof.
  intros Hpos Hgt.
  unfold limitReached.
  rewrite (rampdown_passed_lumiLimitReached now (repeat s)).
  - apply orb_true_r.
  - destruct s; exact Hpos.
  - destruct s; exact Hgt.
Qed.

End LimitTracker.

(** ** More on the current-position cache *)

Section PositionCache.
Context {ext : Collaborators}.

(** X6. reset() forgets whatever the cache operations did before it:
    reset() after reset(), after setting or after resetting either
    snapshot gives the same source as reset() alone; and it leaves
    newRun and newLumi both true. *)
Theorem reset_absorbs (rp : option RunAuxiliary)
    (lbp : option LuminosityBlockAuxiliary) (b : bool) (s : InputSource) :
  reset (reset s) = reset s /\
  reset (setRunAuxiliary rp s) = reset s /\
  reset (setLuminosityBlockAuxiliary lbp s) = reset s /\
  reset (resetRunAuxiliary b s) = reset s /\
  reset (resetLuminosityBlockAuxiliary b s) = reset s /\
  newRun (reset s) = true /\
  newLumi (reset s) = true.
Proof.
  destruct s; cbn.
  repeat split.
Qed.

(** X7. The two snapshot resets both write newLumi, so their order
    shows: the later call decides newLumi, and the two calls commute
    exactly when they are given the same flag. *)
Theorem reset_auxiliary_order (b b' : bool) (s : InputSource) :
  newLumi (resetRunAuxiliary b (resetLuminosityBlockAuxiliary b' s)) = b /\
  newLumi (resetLuminosityBlockAuxiliary b' (resetRunAuxiliary b s)) = b' /\
  (resetRunAuxiliary b (resetLuminosityBlockAuxiliary b' s) =
   resetLuminosityBlockAuxiliary b' (resetRunAuxiliary b s) <-> b = b').
Proof.
  destruct s; cbn.
  split; [reflexivity | split; [reflexivity | ]].
  split.
  - intros H; injection H; auto.
  - intros ->; reflexivity.
Qed.

(** X8. A snapshot reset wipes out an earlier set and a set an earlier
    reset, for the run and for the lumi snapshot; setting the two
    snapshots commutes; and neither setting nor resetting the run
    snapshot touches the lumi snapshot, though both write newLumi. *)
Theorem auxiliary_set_reset (rp : option RunAuxiliary)
    (lbp : option LuminosityBlockAuxiliary) (b : bool) (s : InputSource) :
  resetRunAuxiliary b (setRunAuxiliary rp s) = resetRunAuxiliary b s /\
  setRunAuxiliary rp (resetRunAuxiliary b s) = setRunAuxiliary rp s /\
  resetLuminosityBlockAuxiliary b (setLuminosityBlockAuxiliary lbp s) =
    resetLuminosityBlockAuxiliary b s /\
  setLuminosityBlockAuxiliary lbp (resetLuminosityBlockAuxiliary b s) =
    setLuminosityBlockAuxiliary lbp s /\
  setRunAuxiliary rp (setLuminosityBlockAuxiliary lbp s) =
    setLuminosityBlockAuxiliary lbp (setRunAuxiliary rp s) /\
  luminosityBlockAuxiliary (setRunAuxiliary rp s) =
    luminosityBlockAuxiliary s /\
  luminosityBlockAuxiliary (resetRunAuxiliary b s) =
    luminosityBlockAuxiliary s.
Proof.
  destruct s; cbn.
  repeat split.
Qed.



End PositionCache.

(** ** ItemTypeInfo against ItemType *)

Lemma ItemType_eqb_eq (a b : ItemType) : ItemType_eqb a b = true <-> a = b.
Proof.
  destruct a, b; cbn; split; intros H; try reflexivity; discriminate H.
Qed.

(** X11. Converting an ItemType to an ItemTypeInfo and back gives the
    ItemType again; converting an ItemTypeInfo to its ItemType and back
    gives the same ItemTypeInfo exactly when its position is Invalid:
    the conversion drops the position. *)
Theorem ItemTypeInfo_conversion_round_trip :
  (forall t : ItemType, toItemType (ItemTypeInfo_of t) = t) /\
  (forall i : ItemTypeInfo,
     ItemTypeInfo_of (toItemType i) = i <-> itemPosition i = Invalid).
Proof.
  split.
  - intros t; reflexivity.
  - intros [t p]; cbn; split.
    + intros H; injection H; auto.
    + intros ->; reflexivity.
Qed.

(** X12. Comparing an ItemTypeInfo with an ItemType looks at the type
    only: the comparison is true exactly when the types agree, whatever
    the position, so two values that differ in position compare alike;
    a default-constructed ItemTypeInfo compares equal to IsInvalid and
    to nothing else. *)
Theorem ItemTypeInfo_is_ignores_position :
  (forall (i : ItemTypeInfo) (t : ItemType),
     ItemTypeInfo_is i t = true <-> itemType i = t) /\
  (forall (t t' : ItemType) (p p' : ItemPosition),
     ItemTypeInfo_is (ItemTypeInfo_ctor (Some t) (Some p)) t' =
     ItemTypeInfo_is (ItemTypeInfo_ctor (Some t) (Some p')) t') /\
  (forall t : ItemType,
     ItemTypeInfo_is ItemTypeInfo_default t = true <-> t = IsInvalid).
Proof.
  split; [ | split].
  - intros i t; unfold ItemTypeInfo_is, toItemType, itemType.
    apply ItemType_eqb_eq.
  - intros t t' p p'; reflexivity.
  - intros t; destruct t; cbn; split; intros H;
      try reflexivity; discriminate H.
Qed.

(** ** The limit properties at the sample data *)

(** Reached at 6 s, still reached at 7 s. *)
Lemma limitReached_stays_reached_witness :
  limitReached 7000000000 (sampleSource (-1) 3 5) = true.
Proof.
  apply (limitReached_stays_reached 6000000000 7000000000
           (sampleSource (-1) 3 5)).
  - split; discriminate.
  - split; discriminate.
  - discriminate.
  - reflexivity.
Defined.

(** Five seconds allowed: reached at 6 s, not at 5.5 s. *)
Lemma lumiLimitReached_in_ticks_witness :
  (lumiLimitReached 6000000000 (sampleSource (-1) 3 5) = true <->
   3 = 0 \/ (0 < 5 /\ (5 + 1) * 1000000000 <= 6000000000 - 0)) /\
  (lumiLimitReached 5500000000 (sampleSource (-1) 3 5) = true <->
   3 = 0 \/ (0 < 5 /\ (5 + 1) * 1000000000 <= 5500000000 - 0)).
Proof.
  split.
  - apply (lumiLimitReached_in_ticks 6000000000 (sampleSource (-1) 3 5)).
    split; discriminate.
  - apply (lumiLimitReached_in_ticks 5500000000 (sampleSource (-1) 3 5)).
    split; discriminate.
Defined.


(** Unlimited events and lumis, no rampdown. *)
Lemma limitReached_never_when_unlimited_witness :
  limitReached 9000000000 (sampleSource (-1) (-1) 0) = false.
Proof.
  apply (limitReached_never_when_unlimited (sampleSource (-1) (-1) 0)).
  - discriminate.
  - discriminate.
  - discriminate.
Defined.

(** Three lumis left of three, five seconds allowed, six elapsed. *)
Lemma rampdown_survives_repeat_witness :
  limitReached 6000000000 (repeat (sampleSource (-1) 3 5)) = true.
Proof.
  apply (rampdown_survives_repeat 6000000000 (sampleSource (-1) 3 5));
    reflexivity.
Defined.
